(** * GuitarEffects: RingMod and Flanger over an idealised pyo engine

    The repository holds two composite effects written against the pyo
    audio library ([RingMod.py], [flanger.py]) and two driver scripts
    ([Phaser.py], [Vocoder.py]).  The Python classes only wire primitive
    pyo objects together and forward control changes to them; this file
    embeds that wiring and those forwarders, and gives the primitives a
    real-valued semantics (samples are real numbers, a signal is a
    function from the sample index to a sample). *)

From Stdlib Require Import String ZArith.
From Stdlib Require Import Reals Lra Lia List Arith PeanoNat.
Import ListNotations.

Local Open Scope R_scope.

(** ** The engine: signals, parameters and primitive objects *)

Module Pyo.

(** One channel of audio: sample [n] of the stream. *)
Definition Signal := nat -> R.

(** A control is either a float or one audio stream of another object. *)
Inductive Param :=
| Const (r : R)
| Audio (s : Signal).

(** "float or PyoObject" arguments, after [convertArgsToLists]: a list
    with at least one element (a float becomes a one element list, a
    PyoObject the list of its streams). *)
Record Arg := mkArg { first : Param; others : list Param }.

Definition scalar (r : R) : Arg := mkArg (Const r) [].
Definition mono (s : Signal) : Arg := mkArg (Audio s) [].
Definition floats (r : R) (rs : list R) : Arg := mkArg (Const r) (map Const rs).
Definition items (a : Arg) : list Param := first a :: others a.
Definition arg_len (a : Arg) : nat := S (length (others a)).

Definition resolve (p : Param) : Signal :=
  match p with
  | Const r => fun _ => r
  | Audio s => s
  end.

(** [wrap(arg, i)]: element [i mod len(arg)]. *)
Definition wrap (a : Arg) (i : nat) : Param :=
  nth (i mod arg_len a) (items a) (first a).

(** A resolved multichannel stream. *)
Record Chans := mkChans { width : nat; chan : nat -> Signal }.

Definition pick (c : Chans) (i : nat) : Signal := chan c (i mod width c).

Definition lit (a : Arg) : Chans :=
  mkChans (arg_len a) (fun i => resolve (wrap a i)).

Definition silence : Signal := fun _ => 0.

(** The server: sampling rate, and the read policy of delay lines
    ([tap written d] reads [d] samples back in the samples written so
    far, most recent first; interpolation and clamping live there). *)
Record Server := mkServer { sr : R; tap : list R -> R -> R }.

(** An argument of a primitive is a literal or one of the sibling
    objects of the composite that owns it. *)
Inductive Src (Id : Type) :=
| Lit (a : Arg)
| Own (c : Id).
Arguments Lit {Id} a.
Arguments Own {Id} c.

Definition src_chans {Id} (env : Id -> Chans) (s : Src Id) : Chans :=
  match s with
  | Lit a => lit a
  | Own c => env c
  end.

(** Modelled from the spec: the primitive objects ([Sine], [Sig],
    [Delay], [Interp]) come from the pyo library, which is not part of
    the sources; their lifecycle and sample formulas below follow the
    node contract and the effect formulas of the specification.

    Play state of an object.  [Playing dur delay] keeps the arguments of
    the last [play] call. *)
Inductive RunState :=
| Stopped
| Playing (dur delay : R).

(** The part every object shares: its own parameters, [mul] and [add],
    the play state and the number of [play] calls it has received. *)
Record PyoObject (Id P : Type) := mkObj {
  params : P;
  mul : Src Id;
  add : Src Id;
  state : RunState;
  plays : nat
}.
Arguments mkObj {Id P}.
Arguments params {Id P}.
Arguments mul {Id P}.
Arguments add {Id P}.
Arguments state {Id P}.
Arguments plays {Id P}.

(** Modelled from the spec: a node that was built and never stopped
    produces its samples (the end-to-end scenario builds a RingMod and
    pulls a block); [play] makes the object Playing and counts the call,
    [stop] makes it Stopped. *)
Definition create {Id P} (p : P) (m a : Src Id) : PyoObject Id P :=
  mkObj p m a (Playing 0 0) 0.

Definition play {Id P} (dur delay : R) (o : PyoObject Id P) : PyoObject Id P :=
  mkObj (params o) (mul o) (add o) (Playing dur delay) (S (plays o)).

Definition stop {Id P} (o : PyoObject Id P) : PyoObject Id P :=
  mkObj (params o) (mul o) (add o) Stopped (plays o).

Definition set_params {Id P} (p : P) (o : PyoObject Id P) : PyoObject Id P :=
  mkObj p (mul o) (add o) (state o) (plays o).

Definition live {Id P} (o : PyoObject Id P) : bool :=
  match state o with
  | Playing _ _ => true
  | Stopped => false
  end.

(** Modelled from the spec: output of an object whose unscaled streams
    are [core]: as many streams as the longest argument, stream [i]
    taking element [i mod k] of an argument of length [k], each
    [core * mul + add], all zero while the object is stopped. *)
Definition emit {Id P} (env : Id -> Chans) (o : PyoObject Id P)
    (core : Chans) : Chans :=
  let m := src_chans env (mul o) in
  let a := src_chans env (add o) in
  mkChans (Nat.max (width core) (Nat.max (width m) (width a)))
          (fun i n =>
             if live o then pick core i n * pick m i n + pick a i n else 0).

(** *** Sine *)

Record SineP (Id : Type) := mkSineP { freq : Src Id }.
Arguments mkSineP {Id}.
Arguments freq {Id}.

Definition Sine Id := PyoObject Id (SineP Id).

Definition Sine_new {Id} (f m a : Src Id) : Sine Id :=
  create (mkSineP f) m a.

Definition Sine_setFreq {Id} (x : Src Id) (o : Sine Id) : Sine Id :=
  set_params (mkSineP x) o.

(** Modelled from the spec: the oscillator plays [sin(2*pi*f*n/SR)]
    for a constant frequency [f].  Running phase, in cycles: the
    frequency is accumulated sample by sample. *)
Fixpoint phase (sv : Server) (f : Signal) (n : nat) : R :=
  match n with
  | O => 0
  | S k => phase sv f k + f k / sr sv
  end.

Definition osc (sv : Server) (f : Signal) : Signal :=
  fun n => sin (2 * PI * phase sv f n).

Definition Sine_out {Id} (sv : Server) (env : Id -> Chans) (o : Sine Id) : Chans :=
  let f := src_chans env (freq (params o)) in
  emit env o (mkChans (width f) (fun i => osc sv (chan f i))).

(** *** Sig *)

Record SigP (Id : Type) := mkSigP { value : Src Id }.
Arguments mkSigP {Id}.
Arguments value {Id}.

Definition Sig Id := PyoObject Id (SigP Id).

Definition Sig_new {Id} (v m a : Src Id) : Sig Id :=
  create (mkSigP v) m a.

Definition Sig_setValue {Id} (x : Src Id) (o : Sig Id) : Sig Id :=
  set_params (mkSigP x) o.

Definition Sig_out {Id} (env : Id -> Chans) (o : Sig Id) : Chans :=
  emit env o (src_chans env (value (params o))).

(** *** Delay *)

Record DelayP (Id : Type) := mkDelayP {
  d_input : Src Id;
  delay : Src Id;
  feedback : Src Id
}.
Arguments mkDelayP {Id}.
Arguments d_input {Id}.
Arguments delay {Id}.
Arguments feedback {Id}.

Definition Delay Id := PyoObject Id (DelayP Id).

Definition Delay_new {Id} (i d f m a : Src Id) : Delay Id :=
  create (mkDelayP i d f) m a.

Definition Delay_setFeedback {Id} (x : Src Id) (o : Delay Id) : Delay Id :=
  set_params (mkDelayP (d_input (params o)) (delay (params o)) x) o.

(** Modelled from the spec: samples written into the line before tick
    [n], most recent first.  Each tick reads the line at the requested
    delay, then writes the input plus [feedback] times what was read. *)
Fixpoint written (sv : Server) (inp dt fb : Signal) (n : nat) : list R :=
  match n with
  | O => []
  | S k =>
      let h := written sv inp dt fb k in
      (inp k + fb k * tap sv h (dt k * sr sv)) :: h
  end.

Definition delay_line (sv : Server) (inp dt fb : Signal) : Signal :=
  fun n => tap sv (written sv inp dt fb n) (dt n * sr sv).

Definition Delay_out {Id} (sv : Server) (env : Id -> Chans) (o : Delay Id) : Chans :=
  let i := src_chans env (d_input (params o)) in
  let d := src_chans env (delay (params o)) in
  let f := src_chans env (feedback (params o)) in
  emit env o
    (mkChans (Nat.max (width i) (Nat.max (width d) (width f)))
             (fun c => delay_line sv (pick i c) (pick d c) (pick f c))).

(** *** Interp *)

Record InterpP (Id : Type) := mkInterpP {
  i_input : Src Id;
  i_input2 : Src Id;
  interp : Src Id
}.
Arguments mkInterpP {Id}.
Arguments i_input {Id}.
Arguments i_input2 {Id}.
Arguments interp {Id}.

Definition Interp Id := PyoObject Id (InterpP Id).

(** Modelled from the spec: [input + interp * (input2 - input)], where
    [interp] defaults to an equal mix, 0.5. *)
Definition Interp_new {Id} (i i2 : Src Id) (x : option (Src Id))
    (m a : Src Id) : Interp Id :=
  create (mkInterpP i i2 (match x with Some v => v | None => Lit (scalar (1/2)) end)) m a.

(** One stream per element of the longest of the five arguments; stream
    [c] takes element [c mod k] of each argument of length [k]. *)
Definition Interp_out {Id} (env : Id -> Chans) (o : Interp Id) : Chans :=
  let i := src_chans env (i_input (params o)) in
  let i2 := src_chans env (i_input2 (params o)) in
  let x := src_chans env (interp (params o)) in
  let m := src_chans env (mul o) in
  let a := src_chans env (add o) in
  mkChans (Nat.max (Nat.max (width i) (Nat.max (width i2) (width x)))
                   (Nat.max (width m) (width a)))
          (fun c n =>
             if live o
             then (pick i c n + pick x c n * (pick i2 c n - pick i c n))
                  * pick m c n + pick a c n
             else 0).

(** *** InputFader *)

(** Modelled from the spec: an input as the crossfader holds it, the
    streams of the object and its play state.  An input is taken to be
    playing when it is handed over; a stopped input is silent. *)
Record Input := mkInput { streams_of : Arg; input_state : RunState }.

Definition Input_out (x : Input) : Chans :=
  match input_state x with
  | Playing _ _ => lit (streams_of x)
  | Stopped => mkChans (arg_len (streams_of x)) (fun _ => silence)
  end.


(** Modelled from the spec: the crossfader is not part of the sources
    (only its callers are).  It holds the new input, the old input while
    a fade is running, and the fade time; the fade is a linear amplitude
    ramp that reaches 1 after [fadetime * sr] samples, and once it has
    the old input is released and stopped.  Sample indices of a fader
    count from its last [setInput] (or from its creation). *)
Record InputFader := mkFader {
  cur : Input;
  old : option Input;
  fadetime : R
}.

Definition InputFader_new (input : Arg) : InputFader :=
  mkFader (mkInput input (Playing 0 0)) None (5/100).

Definition InputFader_setInput (x : Arg) (ft : R) (f : InputFader) : InputFader :=
  mkFader (mkInput x (Playing 0 0)) (Some (cur f)) ft.

(** Fade progress after [k] samples. *)
Definition progress (sv : Server) (ft : R) (k : nat) : R :=
  if Rle_dec (ft * sr sv) (INR k) then 1 else INR k / (ft * sr sv).

Definition InputFader_out (sv : Server) (f : InputFader) : Chans :=
  match old f with
  | None => Input_out (cur f)
  | Some o =>
      mkChans (Nat.max (width (Input_out o)) (width (Input_out (cur f))))
              (fun i n =>
                 let t := progress sv (fadetime f) n in
                 (1 - t) * pick (Input_out o) i n + t * pick (Input_out (cur f)) i n)
  end.


(** *** Sliders of the control window *)

(** [SLMap(min, max, scale, name, init)] and [SLMapMul(init)]: one
    slider of [ctrl()].  A named slider assigns the attribute [name] of
    the object it controls. *)
Inductive Scale := lin | log.

Inductive Slider :=
| SLMap (min max : R) (scale : Scale) (name : string) (init : Arg)
| SLMapMul (init : Arg).

Definition slider_name (s : Slider) : option string :=
  match s with
  | SLMap _ _ _ name _ => Some name
  | SLMapMul _ => None
  end.

Definition slider_init (s : Slider) : Arg :=
  match s with
  | SLMap _ _ _ _ init => init
  | SLMapMul init => init
  end.

(** The initial value of a named slider lies between its bounds, on
    every stream and at every sample. *)
Definition slider_in_range (s : Slider) : Prop :=
  match s with
  | SLMap lo hi _ _ init => forall i n, lo <= resolve (wrap init i) n <= hi
  | SLMapMul _ => True
  end.

End Pyo.

(** ** RingMod.py *)

Module RingMod.
Import Pyo.

(** The objects a RingMod owns. *)
Inductive Child := In_fader | Mod | Ring.

Record RingMod := mkRingMod {
  _mul : Arg;
  _add : Arg;
  _input : Arg;
  _freq : Arg;
  _in_fader : InputFader;
  _mod : Sine Child;
  _ring : Sig Child
}.

Definition default {A} (d : A) (x : option A) : A :=
  match x with Some v => v | None => d end.

(** [__init__(self, input, freq=100, mul=1, add=0)].  [_base_objs] are
    the base objects of [_ring]. *)
Definition __init__ (input : Arg) (freq mul add : option Arg) : RingMod :=
  let freq := default (scalar 100) freq in
  let mul := default (scalar 1) mul in
  let add := default (scalar 0) add in
  let in_fader := InputFader_new input in
  let mod_ := Sine_new (Lit freq) (Own In_fader) (Lit (scalar 0)) in
  let ring := Sig_new (Own Mod) (Lit mul) (Lit add) in
  mkRingMod mul add input freq in_fader mod_ ring.

(** [setInput(self, x, fadetime=0.05)] *)
Definition setInput (x : Arg) (fadetime : option R) (self : RingMod) : RingMod :=
  let fadetime := default (5/100) fadetime in
  mkRingMod (_mul self) (_add self) x (_freq self)
            (InputFader_setInput x fadetime (_in_fader self))
            (_mod self) (_ring self).

(** [setFreq(self, x)] *)
Definition setFreq (x : Arg) (self : RingMod) : RingMod :=
  mkRingMod (_mul self) (_add self) (_input self) x
            (_in_fader self)
            (Sine_setFreq (Lit x) (_mod self)) (_ring self).

(** [play(self, dur=0, delay=0)]: the oscillator first, then
    [PyoObject.play], which plays the base objects. *)
Definition play (dur delay : option R) (self : RingMod) : RingMod :=
  let dur := default 0 dur in
  let delay := default 0 delay in
  mkRingMod (_mul self) (_add self) (_input self) (_freq self)
            (_in_fader self)
            (Pyo.play dur delay (_mod self))
            (Pyo.play dur delay (_ring self)).

(** [stop(self)] *)
Definition stop (self : RingMod) : RingMod :=
  mkRingMod (_mul self) (_add self) (_input self) (_freq self)
            (_in_fader self)
            (Pyo.stop (_mod self))
            (Pyo.stop (_ring self)).

(** The two properties: getters and setters. *)
Definition get_input (self : RingMod) : Arg := _input self.
Definition set_input (x : Arg) (self : RingMod) : RingMod := setInput x None self.
Definition get_freq (self : RingMod) : Arg := _freq self.
Definition set_freq (x : Arg) (self : RingMod) : RingMod := setFreq x self.

(** [obj.name] and [obj.name = x] for the public attributes, and the
    explicit setter each of them stands for. *)
Inductive Attr := input | freq.

Definition getattr (a : Attr) (self : RingMod) : Arg :=
  match a with
  | input => get_input self
  | freq => get_freq self
  end.

Definition setattr (a : Attr) (x : Arg) (self : RingMod) : RingMod :=
  match a with
  | input => set_input x self
  | freq => set_freq x self
  end.

Definition setter (a : Attr) (x : Arg) (self : RingMod) : RingMod :=
  match a with
  | input => setInput x (Some (5/100)) self
  | freq => setFreq x self
  end.

(** What the node plays: the streams of [_ring], with the owned objects
    resolved in the order they were built. *)
Definition env_fader (sv : Server) (self : RingMod) (c : Child) : Chans :=
  match c with
  | In_fader => InputFader_out sv (_in_fader self)
  | _ => mkChans 1 (fun _ => silence)
  end.

Definition env_mod (sv : Server) (self : RingMod) (c : Child) : Chans :=
  match c with
  | Mod => Sine_out sv (env_fader sv self) (_mod self)
  | _ => env_fader sv self c
  end.

Definition streams (sv : Server) (self : RingMod) : Chans :=
  Sig_out (env_mod sv self) (_ring self).

(** [ctrl(self, ...)]: the sliders stored in [_map_list]. *)
Definition ctrl (self : RingMod) : list Slider :=
  [SLMap 10 2000 log "freq" (_freq self); SLMapMul (_mul self)].

(** The attribute a name denotes on a RingMod. *)
Definition attr_of_name (name : string) : option Attr :=
  if String.eqb name "input" then Some input
  else if String.eqb name "freq" then Some freq
  else None.

End RingMod.

(** ** flanger.py *)

Module Flanger.
Import Pyo.

(** The objects a Flanger owns. *)
Inductive Child := In_fader | Modamp | Mod | Dls | Flange.

Record Flanger := mkFlanger {
  _mul : Arg;
  _add : Arg;
  _input : Arg;
  _depth : Arg;
  _lfofreq : Arg;
  _feedback : Arg;
  _in_fader : InputFader;
  _modamp : Sig Child;
  _mod : Sine Child;
  _dls : Delay Child;
  _flange : Interp Child
}.

Definition default {A} (d : A) (x : option A) : A :=
  match x with Some v => v | None => d end.

(** The defaults the class docstring announces for [depth], [lfofreq]
    and [feedback]. *)
Definition doc_depth : R := 75/100.
Definition doc_lfofreq : R := 2/10.
Definition doc_feedback : R := 25/100.

(** [__init__(self, input, depth=0.75, lfofreq=0.2, feedback=0.5, mul=1,
    add=0)].  [PyoObject.__init__(self)] is called without [mul] and
    [add], so the stored [_mul] and [_add] are the base class defaults;
    the given ones go to [_flange]. *)
Definition __init__ (input : Arg) (depth lfofreq feedback mul add : option Arg)
    : Flanger :=
  let depth := default (scalar (75/100)) depth in
  let lfofreq := default (scalar (2/10)) lfofreq in
  let feedback := default (scalar (5/10)) feedback in
  let mul := default (scalar 1) mul in
  let add := default (scalar 0) add in
  let in_fader := InputFader_new input in
  let modamp := Sig_new (Lit depth) (Lit (scalar (5/1000))) (Lit (scalar 0)) in
  let mod_ := Sine_new (Lit lfofreq) (Own Modamp) (Lit (scalar (5/1000))) in
  let dls := Delay_new (Own In_fader) (Own Mod) (Lit feedback)
                       (Lit (scalar 1)) (Lit (scalar 0)) in
  let flange := Interp_new (Own In_fader) (Own Dls) None (Lit mul) (Lit add) in
  mkFlanger (scalar 1) (scalar 0) input depth lfofreq feedback
            in_fader modamp mod_ dls flange.

(** [setInput(self, x, fadetime=0.05)] *)
Definition setInput (x : Arg) (fadetime : option R) (self : Flanger) : Flanger :=
  let fadetime := default (5/100) fadetime in
  mkFlanger (_mul self) (_add self) x (_depth self) (_lfofreq self)
            (_feedback self)
            (InputFader_setInput x fadetime (_in_fader self))
            (_modamp self) (_mod self) (_dls self) (_flange self).

(** [setDepth(self, x)] *)
Definition setDepth (x : Arg) (self : Flanger) : Flanger :=
  mkFlanger (_mul self) (_add self) (_input self) x (_lfofreq self)
            (_feedback self) (_in_fader self)
            (Sig_setValue (Lit x) (_modamp self))
            (_mod self) (_dls self) (_flange self).

(** [setLfoFreq(self, x)] *)
Definition setLfoFreq (x : Arg) (self : Flanger) : Flanger :=
  mkFlanger (_mul self) (_add self) (_input self) (_depth self) x
            (_feedback self) (_in_fader self) (_modamp self)
            (Sine_setFreq (Lit x) (_mod self))
            (_dls self) (_flange self).

(** [setFeedback(self, x)] *)
Definition setFeedback (x : Arg) (self : Flanger) : Flanger :=
  mkFlanger (_mul self) (_add self) (_input self) (_depth self)
            (_lfofreq self) x (_in_fader self) (_modamp self) (_mod self)
            (Delay_setFeedback (Lit x) (_dls self))
            (_flange self).

(** [play(self, dur=0, delay=0)] *)
Definition play (dur delay : option R) (self : Flanger) : Flanger :=
  let dur := default 0 dur in
  let delay := default 0 delay in
  mkFlanger (_mul self) (_add self) (_input self) (_depth self)
            (_lfofreq self) (_feedback self) (_in_fader self)
            (Pyo.play dur delay (_modamp self))
            (Pyo.play dur delay (_mod self))
            (Pyo.play dur delay (_dls self))
            (Pyo.play dur delay (_flange self)).

(** [stop(self)] *)
Definition stop (self : Flanger) : Flanger :=
  mkFlanger (_mul self) (_add self) (_input self) (_depth self)
            (_lfofreq self) (_feedback self) (_in_fader self)
            (Pyo.stop (_modamp self))
            (Pyo.stop (_mod self))
            (Pyo.stop (_dls self))
            (Pyo.stop (_flange self)).

(** The four properties: getters and setters. *)
Definition get_input (self : Flanger) : Arg := _input self.
Definition set_input (x : Arg) (self : Flanger) : Flanger := setInput x None self.
Definition get_depth (self : Flanger) : Arg := _depth self.
Definition set_depth (x : Arg) (self : Flanger) : Flanger := setDepth x self.
Definition get_lfofreq (self : Flanger) : Arg := _lfofreq self.
Definition set_lfofreq (x : Arg) (self : Flanger) : Flanger := setLfoFreq x self.
Definition get_feedback (self : Flanger) : Arg := _feedback self.
Definition set_feedback (x : Arg) (self : Flanger) : Flanger := setFeedback x self.

(** [obj.name] and [obj.name = x] for the public attributes, and the
    explicit setter each of them stands for. *)
Inductive Attr := input | depth | lfofreq | feedback.

Definition getattr (a : Attr) (self : Flanger) : Arg :=
  match a with
  | input => get_input self
  | depth => get_depth self
  | lfofreq => get_lfofreq self
  | feedback => get_feedback self
  end.

Definition setattr (a : Attr) (x : Arg) (self : Flanger) : Flanger :=
  match a with
  | input => set_input x self
  | depth => set_depth x self
  | lfofreq => set_lfofreq x self
  | feedback => set_feedback x self
  end.

Definition setter (a : Attr) (x : Arg) (self : Flanger) : Flanger :=
  match a with
  | input => setInput x (Some (5/100)) self
  | depth => setDepth x self
  | lfofreq => setLfoFreq x self
  | feedback => setFeedback x self
  end.

(** The owned objects, resolved in the order they were built. *)
Definition env_fader (sv : Server) (self : Flanger) (c : Child) : Chans :=
  match c with
  | In_fader => InputFader_out sv (_in_fader self)
  | _ => mkChans 1 (fun _ => silence)
  end.

Definition env_modamp (sv : Server) (self : Flanger) (c : Child) : Chans :=
  match c with
  | Modamp => Sig_out (env_fader sv self) (_modamp self)
  | _ => env_fader sv self c
  end.

Definition env_mod (sv : Server) (self : Flanger) (c : Child) : Chans :=
  match c with
  | Mod => Sine_out sv (env_modamp sv self) (_mod self)
  | _ => env_modamp sv self c
  end.

Definition env_dls (sv : Server) (self : Flanger) (c : Child) : Chans :=
  match c with
  | Dls => Delay_out sv (env_mod sv self) (_dls self)
  | _ => env_mod sv self c
  end.

(** The delay time fed to the delay line, the delayed signal, and what
    the node plays (the streams of [_flange]). *)
Definition delay_time (sv : Server) (self : Flanger) : Chans :=
  src_chans (env_mod sv self) (delay (params (_dls self))).

Definition delayed (sv : Server) (self : Flanger) : Chans :=
  env_dls sv self Dls.

Definition dry (sv : Server) (self : Flanger) : Chans :=
  env_dls sv self In_fader.

Definition streams (sv : Server) (self : Flanger) : Chans :=
  Interp_out (env_dls sv self) (_flange self).

(** [ctrl(self, ...)]: the sliders stored in [_map_list]. *)
Definition ctrl (self : Flanger) : list Slider :=
  [SLMap 0 1 lin "depth" (_depth self);
   SLMap (1/1000) 20 log "lfofreq" (_lfofreq self);
   SLMap 0 1 lin "feedback" (_feedback self);
   SLMapMul (_mul self)].

(** The attribute a name denotes on a Flanger. *)
Definition attr_of_name (name : string) : option Attr :=
  if String.eqb name "input" then Some input
  else if String.eqb name "depth" then Some depth
  else if String.eqb name "lfofreq" then Some lfofreq
  else if String.eqb name "feedback" then Some feedback
  else None.

End Flanger.

(** ** Phaser.py and Vocoder.py *)

Module Bank.

(** The two scripts build one filter bank each: [Phaser(..., num=20)]
    and [Vocoder(..., stages=32)]. *)
Definition Phaser_num : nat := 20.
Definition Vocoder_stages : nat := 32.

Definition nyquist (sr : R) : R := sr / 2.

(** Modelled from the spec: the filter banks themselves are not part of
    the sources (only the two scripts that build them are).  Per block
    the bank walks its stages from the lowest; each stage takes the
    running centre frequency, clamped to [0.99 * nyquist] when it is at
    or above Nyquist, and the running frequency is multiplied by
    [spread] for the next stage. *)
Definition clamp (sr f : R) : R :=
  if Rle_dec (nyquist sr) f then 99/100 * nyquist sr else f.

Fixpoint centres (sr freq spread : R) (stages : nat) : list R :=
  match stages with
  | O => []
  | S k => clamp sr freq :: centres sr (freq * spread) spread k
  end.

End Bank.

(** The three oscillators of Phaser.py that drive [freq], [spread] and
    [q], two streams each; they have no sibling objects. *)
Module PhaserScript.
Import Pyo.

Definition alone (c : Empty_set) : Chans := match c with end.

Definition lf1 : Sine Empty_set :=
  Sine_new (Lit (floats (1/10) [15/100])) (Lit (scalar 100)) (Lit (scalar 250)).

Definition lf2 : Sine Empty_set :=
  Sine_new (Lit (floats (18/100) [13/100])) (Lit (scalar (4/10))) (Lit (scalar (15/10))).

Definition lf3 : Sine Empty_set :=
  Sine_new (Lit (floats (7/100) [9/100])) (Lit (scalar 5)) (Lit (scalar 6)).

End PhaserScript.

(** ** Servers and inputs used in the examples *)

(** Modelled from the spec: the read policy of the delay line.  A
    request of [d] samples reads [d] samples back from the write
    position, and at least one, so that a delay of 0 returns the most
    recently written sample; between two samples the read is their
    linear interpolation, and before the first written sample the line
    holds zeros. *)
Definition lerp_tap (h : list R) (d : R) : R :=
  let p := Rmax d 1 - 1 in
  let k := Z.to_nat (Int_part p) in
  (1 - frac_part p) * nth k h 0 + frac_part p * nth (S k) h 0.

(** Sample [n - 1 - k] of a signal, zero before its start: what was fed
    [k + 1] ticks before tick [n]. *)
Definition past (x : Pyo.Signal) (n k : nat) : R :=
  if (k <? n)%nat then x (n - 1 - k)%nat else 0.

Definition cd_server : Pyo.Server := Pyo.mkServer 44100 lerp_tap.

Definition unit_input : Pyo.Arg := Pyo.mono (fun _ => 1).

Definition ramp_input : Pyo.Arg := Pyo.mono INR.

(** A frequency that moves: a quarter of 44100 Hz during the first
    sample, 0 Hz afterwards. *)
Definition step_freq : Pyo.Arg :=
  Pyo.mono (fun k => match k with O => 11025 | S _ => 0 end).

(** ** Facts about the engine *)

Import Pyo.

Lemma wrap_mod (a : Arg) (i : nat) :
  wrap a (i mod arg_len a) = wrap a i.
Proof.
  unfold wrap. now rewrite Nat.Div0.mod_mod.
Qed.

Lemma max_arg_len_1 (a : Arg) : Nat.max (arg_len a) 1 = arg_len a.
Proof.
  unfold arg_len. lia.
Qed.

Lemma pick_lit (a : Arg) (i : nat) :
  pick (lit a) i = resolve (wrap a i).
Proof.
  unfold pick, lit. cbn [width chan]. now rewrite wrap_mod.
Qed.

Lemma wrap_scalar (r : R) (i : nat) : wrap (scalar r) i = Const r.
Proof.
  unfold wrap, scalar, arg_len, items. cbn [first others length].
  rewrite Nat.mod_1_r. reflexivity.
Qed.

Lemma wrap_mono (s : Signal) (i : nat) : wrap (mono s) i = Audio s.
Proof.
  unfold wrap, mono, arg_len, items. cbn [first others length].
  rewrite Nat.mod_1_r. reflexivity.
Qed.

Lemma pick_scalar (r : R) (i n : nat) : pick (lit (scalar r)) i n = r.
Proof.
  rewrite pick_lit, wrap_scalar. reflexivity.
Qed.

Lemma wrap_floats (r : R) (rs : list R) (i : nat) :
  wrap (floats r rs) i = Const (nth (i mod S (length rs)) (r :: rs) r).
Proof.
  unfold wrap, floats, arg_len, items. cbn [first others].
  rewrite length_map.
  change (Const r :: map Const rs) with (map Const (r :: rs)).
  now rewrite map_nth.
Qed.

Lemma phase_const (sv : Server) (f : R) (n : nat) :
  phase sv (fun _ => f) n = INR n * (f / sr sv).
Proof.
  induction n as [|n IH].
  - simpl. ring.
  - rewrite S_INR. cbn [phase]. rewrite IH. ring.
Qed.

Lemma osc_const (sv : Server) (f : R) (n : nat) :
  osc sv (fun _ => f) n = sin (2 * PI * f * INR n / sr sv).
Proof.
  unfold osc. rewrite phase_const. f_equal. unfold Rdiv. ring.
Qed.

Lemma osc_start (sv : Server) (f : Signal) : osc sv f O = 0.
Proof.
  unfold osc. simpl. rewrite Rmult_0_r. apply sin_0.
Qed.

(** ** RingMod: the signal it plays *)

Lemma ringmod_streams (sv : Server) (input freq mul add : Arg) (i n : nat) :
  let j := (i mod Nat.max (arg_len freq) (arg_len input))%nat in
  chan (RingMod.streams sv (RingMod.__init__ input (Some freq) (Some mul) (Some add))) i n =
    resolve (wrap input j) n * osc sv (resolve (wrap freq j)) n
      * resolve (wrap mul i) n + resolve (wrap add i) n.
Proof.
  intro j.
  unfold RingMod.streams, Sig_out, emit, RingMod.__init__, RingMod.default,
    Sig_new, Sine_new, create, live.
  cbn [RingMod._ring params value Pyo.mul Pyo.add state src_chans chan width
       RingMod.env_mod].
  rewrite !pick_lit.
  unfold pick at 1. unfold Sine_out, emit, live.
  cbn [RingMod._mod RingMod._in_fader params Pyo.freq Pyo.mul Pyo.add state
       src_chans chan width RingMod.env_fader].
  unfold InputFader_out, InputFader_new, Input_out.
  cbn [old cur input_state streams_of].
  rewrite !pick_lit, wrap_scalar.
  unfold pick. cbn [chan width lit].
  change (arg_len (scalar 0)) with 1%nat. rewrite max_arg_len_1. fold j.
  rewrite wrap_mod. cbn [resolve]. ring.
Qed.

(** C1 (as amended). A RingMod built on a constant unit input with a
    constant frequency [f], [mul=1] and [add=0] plays [sin(2*pi*f*n/SR)]
    at every sample [n], freshly built and after [play()].  For every
    input, frequency, [mul] and [add], channel [i] at sample [n] is the
    input sample times the sine of [2*pi] times the phase accumulated
    from the frequency up to [n], times [mul] plus [add]; with a list of
    constant frequencies this is [input * sin(2*pi*f*n/SR) * mul + add]. *)
Theorem ringmod_output :
  (forall sv f i n,
      chan (RingMod.streams sv
              (RingMod.__init__ unit_input (Some (scalar f)) None None)) i n
        = sin (2 * PI * f * INR n / sr sv)
      /\ chan (RingMod.streams sv
                 (RingMod.play None None
                    (RingMod.__init__ unit_input (Some (scalar f)) None None))) i n
         = sin (2 * PI * f * INR n / sr sv))
  /\ (forall sv input freq mul add i n,
        let j := (i mod Nat.max (arg_len freq) (arg_len input))%nat in
        chan (RingMod.streams sv
                (RingMod.__init__ input (Some freq) (Some mul) (Some add))) i n
          = resolve (wrap input j) n
            * sin (2 * PI * phase sv (resolve (wrap freq j)) n)
            * resolve (wrap mul i) n + resolve (wrap add i) n)
  /\ (forall sv input f fs mul add i n,
        let j := (i mod Nat.max (S (length fs)) (arg_len input))%nat in
        chan (RingMod.streams sv
                (RingMod.__init__ input (Some (floats f fs)) (Some mul) (Some add))) i n
          = resolve (wrap input j) n
            * sin (2 * PI * nth (j mod S (length fs)) (f :: fs) f * INR n / sr sv)
            * resolve (wrap mul i) n + resolve (wrap add i) n).
Proof.
  split; [|split].
  - intros sv f i n.
    assert (H : chan (RingMod.streams sv
              (RingMod.__init__ unit_input (Some (scalar f)) None None)) i n
        = sin (2 * PI * f * INR n / sr sv)).
    { change (RingMod.__init__ unit_input (Some (scalar f)) None None)
        with (RingMod.__init__ unit_input (Some (scalar f))
                (Some (scalar 1)) (Some (scalar 0))).
      rewrite ringmod_streams, !wrap_scalar.
      unfold unit_input. rewrite wrap_mono. cbn [resolve].
      rewrite osc_const. ring. }
    split; [exact H|].
    rewrite <- H. reflexivity.
  - intros sv input freq mul add i n j.
    apply ringmod_streams.
  - intros sv input f fs mul add i n j.
    rewrite ringmod_streams.
    replace (arg_len (floats f fs)) with (S (length fs))
      by (unfold floats, arg_len; cbn [others]; now rewrite length_map).
    fold j. rewrite wrap_floats. cbn [resolve].
    now rewrite osc_const.
Qed.

(** C1, as the claim words its general formula: the sine taken of the
    frequency of the current sample, with the sample index
    ([2*pi*freq(n)*n/SR]) or without it ([2*pi*freq(n)/SR]).  With a
    frequency that is 11025 Hz during sample 0 and 0 Hz afterwards, at
    44.1 kHz on a unit input, sample 1 is [sin(pi/2) = 1]: the carrier
    has advanced a quarter of a cycle, where both formulas give
    [sin 0 = 0]. *)
Lemma ringmod_moving_frequency_fails :
  ~ (forall sv input freq mul add i n,
        let j := (i mod Nat.max (arg_len freq) (arg_len input))%nat in
        chan (RingMod.streams sv
                (RingMod.__init__ input (Some freq) (Some mul) (Some add))) i n
          = resolve (wrap input j) n
            * sin (2 * PI * resolve (wrap freq j) n / sr sv)
            * resolve (wrap mul i) n + resolve (wrap add i) n)
  /\ ~ (forall sv input freq mul add i n,
          let j := (i mod Nat.max (arg_len freq) (arg_len input))%nat in
          chan (RingMod.streams sv
                  (RingMod.__init__ input (Some freq) (Some mul) (Some add))) i n
            = resolve (wrap input j) n
              * sin (2 * PI * resolve (wrap freq j) n * INR n / sr sv)
              * resolve (wrap mul i) n + resolve (wrap add i) n).
Proof.
  assert (E : chan (RingMod.streams cd_server
                      (RingMod.__init__ unit_input (Some step_freq)
                         (Some (scalar 1)) (Some (scalar 0)))) O 1%nat = 1).
  { rewrite ringmod_streams, !wrap_scalar.
    unfold unit_input, step_freq. rewrite !wrap_mono. cbn [resolve].
    unfold osc. cbn [phase sr cd_server].
    replace (2 * PI * (0 + 11025 / 44100)) with (PI / 2) by field.
    rewrite sin_PI2. ring. }
  split; intro H;
    specialize (H cd_server unit_input step_freq (scalar 1) (scalar 0) O 1%nat);
    cbv zeta in H; rewrite E in H;
    rewrite !wrap_scalar in H; unfold unit_input, step_freq in H;
    rewrite !wrap_mono in H; cbn [resolve sr cd_server INR] in H.
  - replace (2 * PI * 0 / 44100) with 0 in H by (unfold Rdiv; ring).
    rewrite sin_0 in H. lra.
  - replace (2 * PI * 0 * 1 / 44100) with 0 in H by (unfold Rdiv; ring).
    rewrite sin_0 in H. lra.
Qed.

(** ** Flanger: delay time and output *)

Lemma flanger_delay_streams (sv : Server) (input depth lfofreq : Arg)
    (feedback mul add : option Arg) (i n : nat) :
  chan (Flanger.delay_time sv
          (Flanger.__init__ input (Some depth) (Some lfofreq) feedback mul add)) i n =
    resolve (wrap depth i) n * (5/1000) * osc sv (resolve (wrap lfofreq i)) n
      + 5/1000.
Proof.
  unfold Flanger.delay_time, Flanger.__init__, Flanger.default, Delay_new, create.
  cbn [Flanger._dls params delay src_chans Flanger.env_mod].
  unfold Sine_out, Sine_new, emit, create, live.
  cbn [Flanger._mod params Pyo.freq Pyo.mul Pyo.add state src_chans chan width
       Flanger.env_modamp].
  unfold Sig_out, Sig_new, emit, create, live.
  cbn [Flanger._modamp params value Pyo.mul Pyo.add state src_chans chan width].
  rewrite !pick_scalar.
  unfold pick. cbn [chan width lit].
  rewrite !wrap_scalar.
  change (Nat.max (arg_len (scalar (5 / 1000))) (arg_len (scalar 0))) with 1%nat.
  rewrite max_arg_len_1, !wrap_mod. cbn [resolve]. ring.
Qed.

(** C2 (as amended). With constant [depth] and [lfofreq] the delay time
    handed to the delay line is
    [modAmplitude * sin(2*pi*lfofreq*n/SR) + 0.005] seconds with
    [modAmplitude = depth * 0.005]; for [depth] in [0,1] it stays between
    [0.005 - depth*0.005] and [0.005 + depth*0.005]. *)
Theorem flanger_delay_time (sv : Server) (input : Arg) (depth lfofreq : R)
    (feedback mul add : option Arg) (i n : nat) :
  let fl := Flanger.__init__ input (Some (scalar depth)) (Some (scalar lfofreq))
              feedback mul add in
  let modAmplitude := depth * (5/1000) in
  chan (Flanger.delay_time sv fl) i n
    = modAmplitude * sin (2 * PI * lfofreq * INR n / sr sv) + 5/1000
  /\ (0 <= depth <= 1 ->
      5/1000 - depth * (5/1000) <= chan (Flanger.delay_time sv fl) i n
        <= 5/1000 + depth * (5/1000)).
Proof.
  intros fl modAmplitude.
  assert (E : chan (Flanger.delay_time sv fl) i n
              = modAmplitude * sin (2 * PI * lfofreq * INR n / sr sv) + 5/1000).
  { unfold fl. rewrite flanger_delay_streams, !wrap_scalar. cbn [resolve].
    now rewrite osc_const. }
  split; [exact E|].
  intros [Hlo Hhi]. rewrite E. unfold modAmplitude.
  pose proof (SIN_bound (2 * PI * lfofreq * INR n / sr sv)) as [Hs1 Hs2].
  split; nra.
Qed.

Lemma flanger_delay_time_witness :
  (0 <= 1 <= 1) /\
  (5/1000 - 1 * (5/1000)
    <= chan (Flanger.delay_time cd_server
               (Flanger.__init__ unit_input (Some (scalar 1)) (Some (scalar (2/10)))
                  None None None)) O 3%nat
    <= 5/1000 + 1 * (5/1000)).
Proof.
  split; [lra|].
  apply (flanger_delay_time cd_server unit_input 1 (2/10) None None None 0 3).
  lra.
Defined.

(** C2, as the claim words it: the unipolar sweep
    [modAmplitude * (sin(..)+1)/2 + 0.005] is not what reaches the delay
    line.  With [depth = 1] the first sample has a 5 ms delay, not
    7.5 ms, and at a sampling rate of 4 with a 1 Hz sweep sample 3 has no
    delay at all, below the claimed 5 ms floor. *)
Lemma flanger_unipolar_sweep_fails :
  chan (Flanger.delay_time cd_server
          (Flanger.__init__ unit_input (Some (scalar 1)) (Some (scalar (2/10)))
             None None None)) O O
    <> 1 * (5/1000) * (sin (2 * PI * (2/10) * INR 0 / sr cd_server) + 1) / 2 + 5/1000
  /\ chan (Flanger.delay_time (mkServer 4 lerp_tap)
             (Flanger.__init__ unit_input (Some (scalar 1)) (Some (scalar 1))
                None None None)) O 3%nat
     < 5/1000.
Proof.
  split.
  - pose proof (flanger_delay_time cd_server unit_input 1 (2/10) None None None 0 0)
      as [E _].
    cbv zeta in E. rewrite E.
    replace (2 * PI * (2 / 10) * INR 0 / sr cd_server) with 0
      by (cbn [INR]; unfold Rdiv; ring).
    rewrite sin_0. lra.
  - pose proof (flanger_delay_time (mkServer 4 lerp_tap) unit_input 1 1
                  None None None 0 3) as [E _].
    cbv zeta in E. rewrite E.
    replace (2 * PI * 1 * INR 3 / sr (mkServer 4 lerp_tap)) with (3 * (PI / 2))
      by (cbn [sr]; change (INR 3) with (1 + 1 + 1); field).
    rewrite sin_3PI2. lra.
Qed.

Lemma flanger_streams (sv : Server) (input : Arg)
    (depth lfofreq feedback : option Arg) (mul add : Arg) (i n : nat) :
  let fl := Flanger.__init__ input depth lfofreq feedback (Some mul) (Some add) in
  chan (Flanger.streams sv fl) i n =
    (pick (Flanger.dry sv fl) i n
       + 1/2 * (pick (Flanger.delayed sv fl) i n - pick (Flanger.dry sv fl) i n))
      * resolve (wrap mul i) n + resolve (wrap add i) n.
Proof.
  intro fl.
  unfold Flanger.streams, Interp_out, live.
  change (Flanger._flange fl)
    with (Interp_new (Id:=Flanger.Child) (Own Flanger.In_fader) (Own Flanger.Dls)
            None (Lit mul) (Lit add)).
  unfold Interp_new, create.
  cbn [params i_input i_input2 interp Pyo.mul Pyo.add state src_chans chan].
  change (Flanger.env_dls sv fl Flanger.In_fader) with (Flanger.dry sv fl).
  change (Flanger.env_dls sv fl Flanger.Dls) with (Flanger.delayed sv fl).
  rewrite !pick_lit, wrap_scalar. reflexivity.
Qed.

Lemma flanger_dry (sv : Server) (input : Arg)
    (depth lfofreq feedback mul add : option Arg) :
  Flanger.dry sv (Flanger.__init__ input depth lfofreq feedback mul add) = lit input.
Proof.
  reflexivity.
Qed.

Lemma written_no_feedback (sv : Server) (inp dt fb : Signal) (n : nat) :
  (forall k, fb k = 0) ->
  written sv inp dt fb n = rev (map inp (seq 0 n)).
Proof.
  intro Hfb. induction n as [|n IH].
  - reflexivity.
  - cbn [written]. rewrite IH, Hfb.
    rewrite seq_S, map_app, rev_app_distr. cbn [map rev app Nat.add].
    f_equal. ring.
Qed.

Lemma flanger_delayed (sv : Server) (input : Arg)
    (depth lfofreq mul add : option Arg) (feedback : Arg) (c n : nat) :
  let fl := Flanger.__init__ input depth lfofreq (Some feedback) mul add in
  let k := (c mod Nat.max (width (Flanger.dry sv fl))
                    (Nat.max (width (Flanger.delay_time sv fl)) (arg_len feedback)))%nat in
  chan (Flanger.delayed sv fl) c n =
    delay_line sv (pick (Flanger.dry sv fl) k) (pick (Flanger.delay_time sv fl) k)
               (resolve (wrap feedback k)) n.
Proof.
  intros fl k.
  unfold Flanger.delayed. cbn [Flanger.env_dls].
  unfold Delay_out, emit, live.
  change (Flanger._dls fl)
    with (Delay_new (Id:=Flanger.Child) (Own Flanger.In_fader) (Own Flanger.Mod)
            (Lit feedback) (Lit (scalar 1)) (Lit (scalar 0))).
  unfold Delay_new, create.
  cbn [params d_input delay Pyo.feedback Pyo.mul Pyo.add state src_chans chan].
  rewrite !pick_scalar.
  unfold pick at 1. cbn [chan width].
  change (Flanger.env_mod sv fl Flanger.In_fader) with (Flanger.dry sv fl).
  change (Flanger.env_mod sv fl Flanger.Mod) with (Flanger.delay_time sv fl).
  change (width (lit feedback)) with (arg_len feedback). fold k.
  rewrite pick_lit. ring.
Qed.

Lemma nth_written_input (x : Signal) (n k : nat) :
  nth k (rev (map x (seq 0 n))) 0 = past x n k.
Proof.
  unfold past. destruct (Nat.ltb_spec k n) as [Hlt|Hge].
  - rewrite rev_nth by (rewrite length_map, length_seq; exact Hlt).
    rewrite length_map, length_seq.
    rewrite (nth_indep _ 0 (x O)) by (rewrite length_map, length_seq; lia).
    rewrite map_nth, seq_nth by lia.
    f_equal. lia.
  - apply nth_overflow. rewrite length_rev, length_map, length_seq. exact Hge.
Qed.

Lemma lerp_tap_whole (h : list R) (d : nat) :
  (1 <= d)%nat -> lerp_tap h (INR d) = nth (d - 1) h 0.
Proof.
  intro Hd. unfold lerp_tap.
  assert (H1 : 1 <= INR d) by (change 1 with (INR 1); apply le_INR; exact Hd).
  rewrite Rmax_left by exact H1.
  replace (INR d - 1) with (INR (d - 1))
    by (rewrite minus_INR by exact Hd; reflexivity).
  assert (Hf : frac_part (INR (d - 1)) = 0).
  { unfold frac_part. rewrite Int_part_INR, <- INR_IZR_INZ. ring. }
  rewrite Hf, Int_part_INR, Nat2Z.id. ring.
Qed.

(** C4 (as amended). The Flanger plays the dry/wet interpolation
    [input + interp * (delayed - input)] with [interp = 0.5], times [mul]
    plus [add]; with the default [mul=1], [add=0] it is the interpolation
    itself.  With [feedback=0] the delayed signal is a delayed copy of
    the input: the input read back by the requested delay, interpolated
    between the two nearest samples, and for a delay of a whole number
    [d >= 1] of samples the input sample of [d] ticks earlier (zero
    before the input starts).  With [depth=0] the delay time is 0.005
    seconds at every sample. *)
Theorem flanger_output :
  (forall sv input depth lfofreq feedback mul add i n,
      let fl := Flanger.__init__ input depth lfofreq feedback (Some mul) (Some add) in
      let x := pick (lit input) i n in
      let w := pick (Flanger.delayed sv fl) i n in
      chan (Flanger.streams sv fl) i n
        = (x + 1/2 * (w - x)) * resolve (wrap mul i) n + resolve (wrap add i) n)
  /\ (forall sv input depth lfofreq feedback i n,
        let fl := Flanger.__init__ input depth lfofreq feedback None None in
        let x := pick (lit input) i n in
        let w := pick (Flanger.delayed sv fl) i n in
        chan (Flanger.streams sv fl) i n = x + 1/2 * (w - x))
  /\ (forall r input depth lfofreq mul add c n,
        let sv := mkServer r lerp_tap in
        let fl := Flanger.__init__ input depth lfofreq (Some (scalar 0)) mul add in
        let k := (c mod Nat.max (width (Flanger.dry sv fl))
                          (Nat.max (width (Flanger.delay_time sv fl)) 1))%nat in
        let x := pick (lit input) k in
        let p := Rmax (pick (Flanger.delay_time sv fl) k n * r) 1 - 1 in
        let K := Z.to_nat (Int_part p) in
        chan (Flanger.delayed sv fl) c n
          = (1 - frac_part p) * past x n K + frac_part p * past x n (S K)
        /\ (forall d,
              (1 <= d)%nat ->
              pick (Flanger.delay_time sv fl) k n * r = INR d ->
              ((d <= n)%nat -> chan (Flanger.delayed sv fl) c n = x (n - d)%nat)
              /\ ((n < d)%nat -> chan (Flanger.delayed sv fl) c n = 0)))
  /\ (forall sv input lfofreq feedback mul add i n,
        chan (Flanger.delay_time sv
                (Flanger.__init__ input (Some (scalar 0)) (Some lfofreq)
                   feedback mul add)) i n = 5/1000).
Proof.
  split; [|split; [|split]].
  - intros sv input depth lfofreq feedback mul add i n fl x w.
    exact (flanger_streams sv input depth lfofreq feedback mul add i n).
  - intros sv input depth lfofreq feedback i n fl x w.
    assert (H : chan (Flanger.streams sv fl) i n
                = (x + 1/2 * (w - x)) * resolve (wrap (scalar 1) i) n
                  + resolve (wrap (scalar 0) i) n)
      by exact (flanger_streams sv input depth lfofreq feedback
                  (scalar 1) (scalar 0) i n).
    rewrite H, !wrap_scalar. cbn [resolve]. ring.
  - intros r input depth lfofreq mul add c n sv fl k x p K.
    assert (H : chan (Flanger.delayed sv fl) c n
                = lerp_tap (rev (map x (seq 0 n)))
                    (pick (Flanger.delay_time sv fl) k n * r)).
    { assert (H0 : chan (Flanger.delayed sv fl) c n
                   = delay_line sv x (pick (Flanger.delay_time sv fl) k)
                       (resolve (wrap (scalar 0) k)) n)
        by exact (flanger_delayed sv input depth lfofreq mul add (scalar 0) c n).
      rewrite H0. unfold delay_line.
      rewrite written_no_feedback
        by (intro; rewrite wrap_scalar; reflexivity).
      reflexivity. }
    split.
    + rewrite H. unfold lerp_tap. fold p. fold K.
      now rewrite !nth_written_input.
    + intros d Hd Hdt. rewrite H, Hdt, lerp_tap_whole, nth_written_input by exact Hd.
      unfold past. split; intro Hn.
      * destruct (Nat.ltb_spec (d - 1) n) as [_|Hge]; [|lia].
        f_equal. lia.
      * destruct (Nat.ltb_spec (d - 1) n) as [Hlt|_]; [lia|reflexivity].
  - intros sv input lfofreq feedback mul add i n.
    rewrite flanger_delay_streams, wrap_scalar. cbn [resolve]. ring.
Qed.

Lemma flanger_output_witness :
  (1 <= 5)%nat /\ (5 <= 10)%nat
  /\ chan (Flanger.delayed (mkServer 1000 lerp_tap)
             (Flanger.__init__ ramp_input (Some (scalar 0)) (Some (scalar (2/10)))
                (Some (scalar 0)) None None)) O 10%nat = 5.
Proof.
  assert (H1 : (1 <= 5)%nat) by lia.
  assert (H2 : (5 <= 10)%nat) by lia.
  split; [exact H1|]. split; [exact H2|].
  destruct flanger_output as [_ [_ [Hcopy Hflat]]].
  destruct (Hcopy 1000 ramp_input (Some (scalar 0)) (Some (scalar (2/10)))
              None None O 10%nat) as [_ Hwhole].
  destruct (Hwhole 5%nat H1) as [Hin _].
  - unfold pick.
    rewrite (Hflat (mkServer 1000 lerp_tap) ramp_input (scalar (2/10))
               (Some (scalar 0)) None None).
    rewrite INR_IZR_INZ. cbn [Z.of_nat Pos.of_succ_nat Pos.succ]. lra.
  - rewrite (Hin H2). unfold ramp_input. rewrite pick_lit, wrap_mono.
    cbn [resolve Nat.sub]. rewrite INR_IZR_INZ. reflexivity.
Defined.

(** C4, as the claim words it for every Flanger: a Flanger built with
    [add=1] plays the interpolation plus one. *)
Lemma flanger_interpolation_ignores_add_fails :
  ~ (forall sv input depth lfofreq feedback mul add i n,
        let fl := Flanger.__init__ input depth lfofreq feedback mul add in
        let x := pick (lit input) i n in
        let w := pick (Flanger.delayed sv fl) i n in
        chan (Flanger.streams sv fl) i n = x + 1/2 * (w - x)).
Proof.
  intro H.
  specialize (H cd_server unit_input None None None None (Some (scalar 1)) O O).
  cbv zeta in H.
  pose proof (flanger_streams cd_server unit_input None None None
                (scalar 1) (scalar 1) O O) as G.
  cbv zeta in G.
  change (Flanger.__init__ unit_input None None None None (Some (scalar 1)))
    with (Flanger.__init__ unit_input None None None
            (Some (scalar 1)) (Some (scalar 1))) in H.
  rewrite G, !wrap_scalar in H. cbn [resolve] in H.
  rewrite flanger_dry in H.
  lra.
Qed.

(** ** Constructor defaults *)

(** C3. A Flanger built without a [feedback] argument stores 0.5 and
    hands 0.5 to its delay line, which then runs with that feedback; the
    docstring announces 0.25, a different value. *)
Theorem flanger_default_feedback :
  forall sv input depth lfofreq mul add c n,
    let fl := Flanger.__init__ input depth lfofreq None mul add in
    let k := (c mod Nat.max (width (Flanger.dry sv fl))
                      (Nat.max (width (Flanger.delay_time sv fl)) 1))%nat in
    Flanger._feedback fl = scalar (5/10)
    /\ Pyo.feedback (params (Flanger._dls fl)) = Lit (scalar (5/10))
    /\ chan (Flanger.delayed sv fl) c n
       = delay_line sv (pick (lit input) k) (pick (Flanger.delay_time sv fl) k)
           (fun _ => 5/10) n
    /\ Flanger.doc_feedback = 25/100
    /\ Flanger.doc_feedback <> 5/10.
Proof.
  intros sv input depth lfofreq mul add c n fl k.
  repeat split.
  - assert (H : chan (Flanger.delayed sv fl) c n
                = delay_line sv (pick (lit input) k)
                    (pick (Flanger.delay_time sv fl) k)
                    (resolve (wrap (scalar (5/10)) k)) n)
      by exact (flanger_delayed sv input depth lfofreq mul add (scalar (5/10)) c n).
    rewrite H, wrap_scalar. reflexivity.
  - unfold Flanger.doc_feedback. lra.
Qed.

(** ** Lifecycle *)

(** C5 (as amended). [stop()] is idempotent: a second [stop()] changes
    nothing, the node and the objects it owns are Stopped and the node
    plays silence after one call and after two.  A second [play()] leaves
    every owned object in the same Playing state as the first, but it is
    forwarded like the first: each owned object receives one [play] per
    call, so its count goes up by two. *)
Theorem lifecycle_idempotence :
  (forall sv (rm : RingMod.RingMod) dur delay i n,
      RingMod.stop (RingMod.stop rm) = RingMod.stop rm
      /\ state (RingMod._mod (RingMod.stop rm)) = Stopped
      /\ state (RingMod._ring (RingMod.stop rm)) = Stopped
      /\ chan (RingMod.streams sv (RingMod.stop rm)) i n = 0
      /\ chan (RingMod.streams sv (RingMod.stop (RingMod.stop rm))) i n = 0
      /\ state (RingMod._mod (RingMod.play dur delay (RingMod.play dur delay rm)))
         = state (RingMod._mod (RingMod.play dur delay rm))
      /\ state (RingMod._ring (RingMod.play dur delay (RingMod.play dur delay rm)))
         = state (RingMod._ring (RingMod.play dur delay rm))
      /\ plays (RingMod._mod (RingMod.play dur delay (RingMod.play dur delay rm)))
         = (2 + plays (RingMod._mod rm))%nat)
  /\ (forall sv (fl : Flanger.Flanger) dur delay i n,
        Flanger.stop (Flanger.stop fl) = Flanger.stop fl
        /\ state (Flanger._modamp (Flanger.stop fl)) = Stopped
        /\ state (Flanger._mod (Flanger.stop fl)) = Stopped
        /\ state (Flanger._dls (Flanger.stop fl)) = Stopped
        /\ state (Flanger._flange (Flanger.stop fl)) = Stopped
        /\ chan (Flanger.streams sv (Flanger.stop fl)) i n = 0
        /\ chan (Flanger.streams sv (Flanger.stop (Flanger.stop fl))) i n = 0
        /\ state (Flanger._modamp (Flanger.play dur delay (Flanger.play dur delay fl)))
           = state (Flanger._modamp (Flanger.play dur delay fl))
        /\ state (Flanger._mod (Flanger.play dur delay (Flanger.play dur delay fl)))
           = state (Flanger._mod (Flanger.play dur delay fl))
        /\ state (Flanger._dls (Flanger.play dur delay (Flanger.play dur delay fl)))
           = state (Flanger._dls (Flanger.play dur delay fl))
        /\ state (Flanger._flange (Flanger.play dur delay (Flanger.play dur delay fl)))
           = state (Flanger._flange (Flanger.play dur delay fl))
        /\ plays (Flanger._modamp (Flanger.play dur delay (Flanger.play dur delay fl)))
           = (2 + plays (Flanger._modamp fl))%nat
        /\ plays (Flanger._mod (Flanger.play dur delay (Flanger.play dur delay fl)))
           = (2 + plays (Flanger._mod fl))%nat
        /\ plays (Flanger._dls (Flanger.play dur delay (Flanger.play dur delay fl)))
           = (2 + plays (Flanger._dls fl))%nat).
Proof.
  split.
  - intros sv rm dur delay i n. repeat split.
  - intros sv fl dur delay i n. repeat split.
Qed.

(** C5, as the claim words it: after two [play()] calls on a new node
    the count of every owned object is 2, not 1. *)
Lemma second_play_reaches_children :
  plays (RingMod._mod
           (RingMod.play None None
              (RingMod.play None None
                 (RingMod.__init__ unit_input None None None)))) <> 1%nat
  /\ plays (Flanger._modamp
              (Flanger.play None None
                 (Flanger.play None None
                    (Flanger.__init__ unit_input None None None None None)))) <> 1%nat
  /\ plays (Flanger._mod
              (Flanger.play None None
                 (Flanger.play None None
                    (Flanger.__init__ unit_input None None None None None)))) <> 1%nat
  /\ plays (Flanger._dls
              (Flanger.play None None
                 (Flanger.play None None
                    (Flanger.__init__ unit_input None None None None None)))) <> 1%nat.
Proof.
  cbn. repeat split; discriminate.
Qed.

(** ** Replacing the input *)





(** ** Filter bank centre frequencies *)

Lemma centres_length (sr freq spread : R) (stages : nat) :
  length (Bank.centres sr freq spread stages) = stages.
Proof.
  revert freq. induction stages as [|k IH]; intro freq.
  - reflexivity.
  - cbn [Bank.centres length]. now rewrite IH.
Qed.

Lemma centres_nth (sr freq spread : R) (stages i : nat) :
  (i < stages)%nat ->
  nth i (Bank.centres sr freq spread stages) 0 = Bank.clamp sr (freq * spread ^ i).
Proof.
  revert freq i. induction stages as [|k IH]; intros freq i Hi.
  - lia.
  - destruct i as [|i].
    + cbn [Bank.centres nth pow]. now rewrite Rmult_1_r.
    + cbn [Bank.centres nth]. rewrite IH by lia.
      f_equal. cbn [pow]. ring.
Qed.

(** C7. In a bank of [stages] stages with base frequency [freq] and
    ratio [spread], stage [i] is centred on [freq * spread^i] when that is
    below Nyquist and on [0.99 * Nyquist] when it is at or above it, for
    every [i] below [stages]; the Phaser of the script has 20 such stages
    and the Vocoder 32. *)
Theorem bank_centre_frequencies (sr freq spread : R) (stages i : nat) :
  (i < stages)%nat ->
  length (Bank.centres sr freq spread stages) = stages
  /\ (freq * spread ^ i < sr / 2 ->
      nth i (Bank.centres sr freq spread stages) 0 = freq * spread ^ i)
  /\ (sr / 2 <= freq * spread ^ i ->
      nth i (Bank.centres sr freq spread stages) 0 = 99/100 * (sr / 2))
  /\ length (Bank.centres sr freq spread Bank.Phaser_num) = 20%nat
  /\ length (Bank.centres sr freq spread Bank.Vocoder_stages) = 32%nat.
Proof.
  intro Hi. split; [apply centres_length|].
  rewrite centres_nth by exact Hi.
  unfold Bank.clamp, Bank.nyquist.
  repeat split.
  - intro Hlt. destruct (Rle_dec (sr / 2) (freq * spread ^ i)); [lra|reflexivity].
  - intro Hge. destruct (Rle_dec (sr / 2) (freq * spread ^ i)); [reflexivity|lra].
Qed.

Lemma bank_centre_frequencies_witness :
  (1 < Bank.Phaser_num)%nat
  /\ nth 1 (Bank.centres 44100 250 (3/2) Bank.Phaser_num) 0 = 250 * (3/2) ^ 1
  /\ nth 1 (Bank.centres 44100 250 100 Bank.Phaser_num) 0 = 99/100 * (44100 / 2).
Proof.
  assert (H : (1 < Bank.Phaser_num)%nat) by (unfold Bank.Phaser_num; lia).
  split; [exact H|]. split.
  - destruct (bank_centre_frequencies 44100 250 (3/2) Bank.Phaser_num 1 H)
      as [_ [Hlow _]].
    apply Hlow. cbn [pow]. lra.
  - destruct (bank_centre_frequencies 44100 250 100 Bank.Phaser_num 1 H)
      as [_ [_ [Hhigh _]]].
    apply Hhigh. cbn [pow]. lra.
Defined.

(** ** Setters *)

(** C8. [setDepth(x)] and [setFeedback(x)] take every float [x]: the
    float is stored as it is and handed as it is to the amplitude signal
    and to the delay line, whatever its range; a depth set that way
    scales the sweep by [x * 0.005] unclamped. *)
Theorem flanger_setters_take_any_float :
  forall (x : R) (fl : Flanger.Flanger),
    Flanger._depth (Flanger.setDepth (scalar x) fl) = scalar x
    /\ value (params (Flanger._modamp (Flanger.setDepth (scalar x) fl)))
       = Lit (scalar x)
    /\ Flanger._feedback (Flanger.setFeedback (scalar x) fl) = scalar x
    /\ Pyo.feedback (params (Flanger._dls (Flanger.setFeedback (scalar x) fl)))
       = Lit (scalar x)
    /\ (forall sv input d lfofreq i n,
          chan (Flanger.delay_time sv
                  (Flanger.setDepth (scalar x)
                     (Flanger.__init__ input (Some d) (Some (scalar lfofreq))
                        None None None))) i n
            = x * (5/1000) * sin (2 * PI * lfofreq * INR n / sr sv) + 5/1000).
Proof.
  intros x fl. repeat split.
  intros sv input d lfofreq i n.
  change (Flanger.delay_time sv
            (Flanger.setDepth (scalar x)
               (Flanger.__init__ input (Some d) (Some (scalar lfofreq))
                  None None None)))
    with (Flanger.delay_time sv
            (Flanger.__init__ input (Some (scalar x)) (Some (scalar lfofreq))
               None None None)).
  rewrite flanger_delay_streams, !wrap_scalar. cbn [resolve].
  now rewrite osc_const.
Qed.

(** C9. [setFreq(x)] stores [x] in [_freq] and in the frequency of the
    oscillator and changes nothing else: the input fader (so no fade is
    started), the stored input, the output stage, and the oscillator's
    [mul], [add], play state and play count are as before. *)
Theorem ringmod_setFreq_frame :
  forall (x : Arg) (rm : RingMod.RingMod),
    let rm' := RingMod.setFreq x rm in
    RingMod._freq rm' = x
    /\ Pyo.freq (params (RingMod._mod rm')) = Lit x
    /\ RingMod._in_fader rm' = RingMod._in_fader rm
    /\ RingMod._input rm' = RingMod._input rm
    /\ RingMod._ring rm' = RingMod._ring rm
    /\ RingMod._mul rm' = RingMod._mul rm
    /\ RingMod._add rm' = RingMod._add rm
    /\ Pyo.mul (RingMod._mod rm') = Pyo.mul (RingMod._mod rm)
    /\ Pyo.add (RingMod._mod rm') = Pyo.add (RingMod._mod rm)
    /\ state (RingMod._mod rm') = state (RingMod._mod rm)
    /\ plays (RingMod._mod rm') = plays (RingMod._mod rm).
Proof.
  intros x rm rm'. repeat split.
Qed.

(** C10. Assigning to a public attribute of a RingMod or a Flanger is
    the call of its setter ([setInput] with the default fade time of 0.05
    for [input]): both store the value in the same attribute, both hand
    it to the same owned object (the oscillator for [freq] and
    [lfofreq], the amplitude signal for [depth], the delay line for
    [feedback], the input fader with 0.05 seconds for [input]), and
    reading the attribute back gives the assigned value. *)
Theorem attribute_assignment_is_setter :
  (forall (a : RingMod.Attr) (x : Arg) (rm : RingMod.RingMod),
      let received (rm' : RingMod.RingMod) :=
        match a with
        | RingMod.input =>
            RingMod._input rm' = x
            /\ RingMod._in_fader rm'
               = InputFader_setInput x (5/100) (RingMod._in_fader rm)
            /\ streams_of (cur (RingMod._in_fader rm')) = x
            /\ fadetime (RingMod._in_fader rm') = 5/100
        | RingMod.freq =>
            RingMod._freq rm' = x
            /\ Pyo.freq (params (RingMod._mod rm')) = Lit x
        end in
      RingMod.setattr a x rm = RingMod.setter a x rm
      /\ received (RingMod.setattr a x rm)
      /\ received (RingMod.setter a x rm)
      /\ RingMod.getattr a (RingMod.setattr a x rm) = x)
  /\ (forall (a : Flanger.Attr) (x : Arg) (fl : Flanger.Flanger),
        let received (fl' : Flanger.Flanger) :=
          match a with
          | Flanger.input =>
              Flanger._input fl' = x
              /\ Flanger._in_fader fl'
                 = InputFader_setInput x (5/100) (Flanger._in_fader fl)
              /\ streams_of (cur (Flanger._in_fader fl')) = x
              /\ fadetime (Flanger._in_fader fl') = 5/100
          | Flanger.depth =>
              Flanger._depth fl' = x
              /\ value (params (Flanger._modamp fl')) = Lit x
          | Flanger.lfofreq =>
              Flanger._lfofreq fl' = x
              /\ Pyo.freq (params (Flanger._mod fl')) = Lit x
          | Flanger.feedback =>
              Flanger._feedback fl' = x
              /\ Pyo.feedback (params (Flanger._dls fl')) = Lit x
          end in
        Flanger.setattr a x fl = Flanger.setter a x fl
        /\ received (Flanger.setattr a x fl)
        /\ received (Flanger.setter a x fl)
        /\ Flanger.getattr a (Flanger.setattr a x fl) = x).
Proof.
  split; intros a x o received; unfold received; destruct a; repeat split.
Qed.

(** ** Further properties of the two classes *)

(** *** Number of streams *)

(** X1. A RingMod has as many streams as its longest argument among
    [input], [freq], [mul] and [add]. *)
Theorem ringmod_stream_count :
  forall sv input freq mul add,
    let rm := RingMod.__init__ input freq mul add in
    width (RingMod.streams sv rm)
      = Nat.max (arg_len input)
          (Nat.max (arg_len (RingMod._freq rm))
             (Nat.max (arg_len (RingMod._mul rm)) (arg_len (RingMod._add rm)))).
Proof.
  intros sv input freq mul add rm.
  subst rm.
  cbv beta iota zeta delta
    [RingMod.streams Sig_out Sine_out emit RingMod.__init__
     Sig_new Sine_new create InputFader_out InputFader_new
     Input_out streams_of input_state
     RingMod._ring RingMod._mod RingMod._in_fader RingMod._freq RingMod._mul
     RingMod._add params value Pyo.freq Pyo.mul Pyo.add src_chans width
     RingMod.env_mod RingMod.env_fader old cur lit arg_len].
  cbn [scalar others List.length]. lia.
Qed.

(** X2. A Flanger has as many streams as its longest argument among
    [input], [depth], [lfofreq], [feedback], [mul] and [add]. *)
Theorem flanger_stream_count :
  forall sv input depth lfofreq feedback mul add,
    let fl := Flanger.__init__ input depth lfofreq feedback mul add in
    width (Flanger.streams sv fl)
      = Nat.max (arg_len input)
          (Nat.max (arg_len (Flanger._depth fl))
             (Nat.max (arg_len (Flanger._lfofreq fl))
                (Nat.max (arg_len (Flanger._feedback fl))
                   (Nat.max (arg_len (Flanger.default (scalar 1) mul))
                      (arg_len (Flanger.default (scalar 0) add)))))).
Proof.
  intros sv input depth lfofreq feedback mul add fl.
  subst fl.
  cbv beta iota zeta delta
    [Flanger.streams Interp_out Delay_out Sig_out Sine_out emit
     Flanger.__init__ Interp_new Delay_new Sig_new Sine_new create
     InputFader_out InputFader_new Input_out streams_of input_state
     Flanger._flange Flanger._dls Flanger._mod Flanger._modamp
     Flanger._in_fader Flanger._depth Flanger._lfofreq Flanger._feedback
     params value Pyo.freq d_input delay Pyo.feedback i_input i_input2 interp
     Pyo.mul Pyo.add src_chans width
     Flanger.env_dls Flanger.env_mod Flanger.env_modamp Flanger.env_fader
     old cur lit arg_len].
  cbn [scalar others List.length]. lia.
Qed.

(** *** What a RingMod plays *)

Lemma osc_bound (sv : Server) (f : Signal) (n : nat) : Rabs (osc sv f n) <= 1.
Proof.
  unfold osc. apply Rabs_le. apply SIN_bound.
Qed.

(** X3. A RingMod never plays louder than its input: the distance of
    an output sample from [add] is at most the input sample times [mul]
    in absolute value, whatever the frequency; with the default [mul]
    and [add] the output is at most the input in absolute value. *)
Theorem ringmod_amplitude_bound :
  forall sv input freq i n,
    let j := (i mod Nat.max (arg_len freq) (arg_len input))%nat in
    (forall mul add,
        Rabs (chan (RingMod.streams sv
                      (RingMod.__init__ input (Some freq) (Some mul) (Some add))) i n
              - resolve (wrap add i) n)
          <= Rabs (resolve (wrap input j) n) * Rabs (resolve (wrap mul i) n))
    /\ Rabs (chan (RingMod.streams sv
                     (RingMod.__init__ input (Some freq) None None)) i n)
       <= Rabs (resolve (wrap input j) n).
Proof.
  intros sv input freq i n j.
  assert (G : forall mul add,
             Rabs (chan (RingMod.streams sv
                           (RingMod.__init__ input (Some freq) (Some mul) (Some add))) i n
                   - resolve (wrap add i) n)
               <= Rabs (resolve (wrap input j) n) * Rabs (resolve (wrap mul i) n)).
  { intros mul add. rewrite ringmod_streams. fold j.
    match goal with
    | |- Rabs ?e <= _ =>
        replace e with (resolve (wrap input j) n * resolve (wrap mul i) n
                        * osc sv (resolve (wrap freq j)) n) by ring
    end.
    rewrite Rabs_mult, <- (Rabs_mult (resolve (wrap input j) n)).
    pose proof (osc_bound sv (resolve (wrap freq j)) n) as Hs.
    pose proof (Rabs_pos (resolve (wrap input j) n * resolve (wrap mul i) n)) as Hp.
    nra. }
  split; [exact G|].
  specialize (G (scalar 1) (scalar 0)).
  rewrite !wrap_scalar in G. cbn [resolve] in G.
  rewrite Rminus_0_r, Rabs_R1, Rmult_1_r in G. exact G.
Qed.

(** X4. The carrier starts at phase zero and a carrier of 0 Hz never
    leaves it: the first sample of every RingMod is [add], and a RingMod
    with [freq = 0] plays [add] at every sample, whatever its input. *)
Theorem ringmod_carrier_at_rest :
  (forall sv input freq mul add i,
      chan (RingMod.streams sv
              (RingMod.__init__ input (Some freq) (Some mul) (Some add))) i O
        = resolve (wrap add i) O)
  /\ (forall sv input mul add i n,
        chan (RingMod.streams sv
                (RingMod.__init__ input (Some (scalar 0)) (Some mul) (Some add))) i n
          = resolve (wrap add i) n).
Proof.
  split.
  - intros sv input freq mul add i.
    rewrite ringmod_streams, osc_start. ring.
  - intros sv input mul add i n.
    rewrite ringmod_streams, wrap_scalar. cbn [resolve].
    rewrite osc_const.
    replace (2 * PI * 0 * INR n / sr sv) with 0 by (unfold Rdiv; ring).
    rewrite sin_0. ring.
Qed.

(** X5. Without offset a RingMod is linear in its input: on the sum of
    two signals it plays the sum of what it plays on each, and on a
    signal scaled by [c] it plays [c] times as much. *)
Theorem ringmod_linear_in_input :
  forall sv (x y : Signal) (c : R) freq mul i n,
    let node s := RingMod.__init__ (mono s) (Some freq) (Some mul) (Some (scalar 0)) in
    chan (RingMod.streams sv (node (fun k => x k + y k))) i n
      = chan (RingMod.streams sv (node x)) i n + chan (RingMod.streams sv (node y)) i n
    /\ chan (RingMod.streams sv (node (fun k => c * x k))) i n
       = c * chan (RingMod.streams sv (node x)) i n.
Proof.
  intros sv x y c freq mul i n node. unfold node.
  rewrite !ringmod_streams, !wrap_mono, !wrap_scalar. cbn [resolve].
  change (arg_len (mono (fun k => x k + y k))) with 1%nat.
  change (arg_len (mono (fun k => c * x k))) with 1%nat.
  change (arg_len (mono x)) with 1%nat.
  change (arg_len (mono y)) with 1%nat.
  split; ring.
Qed.

(** *** The sweep of a Flanger *)

(** X6. Whatever signals drive [depth] and [lfofreq], the delay time
    stays within [0.005 * |depth|] of 5 ms; while [depth] is in [0,1] it
    is never negative and never above 10 ms, below the 20 ms the
    docstring names. *)
Theorem flanger_delay_stays_short :
  forall sv input depth lfofreq feedback mul add i n,
    let dt := chan (Flanger.delay_time sv
                      (Flanger.__init__ input (Some depth) (Some lfofreq)
                         feedback mul add)) i n in
    let d := resolve (wrap depth i) n in
    Rabs (dt - 5/1000) <= 5/1000 * Rabs d
    /\ (0 <= d <= 1 -> 0 <= dt <= 10/1000 /\ dt < 20/1000).
Proof.
  intros sv input depth lfofreq feedback mul add i n dt d.
  assert (E : dt = d * (5/1000) * osc sv (resolve (wrap lfofreq i)) n + 5/1000)
    by apply flanger_delay_streams.
  assert (Hs : -1 <= osc sv (resolve (wrap lfofreq i)) n <= 1)
    by (unfold osc; apply SIN_bound).
  split.
  - rewrite E.
    match goal with
    | |- Rabs ?e <= _ =>
        replace e with (5/1000 * (d * osc sv (resolve (wrap lfofreq i)) n)) by ring
    end.
    rewrite Rabs_mult, (Rabs_right (5/1000)) by lra.
    rewrite Rabs_mult.
    pose proof (Rabs_pos d) as Hd.
    assert (Ho : Rabs (osc sv (resolve (wrap lfofreq i)) n) <= 1)
      by apply osc_bound.
    pose proof (Rabs_pos (osc sv (resolve (wrap lfofreq i)) n)) as Ho'.
    nra.
  - intros [Hlo Hhi]. rewrite E. repeat split; nra.
Qed.

Lemma flanger_delay_stays_short_witness :
  (0 <= resolve (wrap (scalar (9/10)) O) 7%nat <= 1)
  /\ 0 <= chan (Flanger.delay_time cd_server
                  (Flanger.__init__ unit_input (Some (scalar (9/10)))
                     (Some (scalar (1/10))) (Some (scalar (5/10)))
                     (Some (scalar (5/10))) None)) O 7%nat.
Proof.
  assert (H : 0 <= resolve (wrap (scalar (9/10)) O) 7%nat <= 1)
    by (rewrite wrap_scalar; cbn [resolve]; lra).
  split; [exact H|].
  destruct (flanger_delay_stays_short cd_server unit_input (scalar (9/10))
              (scalar (1/10)) (Some (scalar (5/10))) (Some (scalar (5/10)))
              None 0 7) as [_ Hin].
  destruct (Hin H) as [[Hlo _] _]. exact Hlo.
Defined.

(** *** Setters, constructors and the lifecycle *)

(** X7. Setting a control right after construction, to a value with as
    many elements as the one the node was built with, gives the node
    that construction with that value gives: [setFreq] on a RingMod,
    [setDepth], [setLfoFreq] and [setFeedback] on a Flanger.  So a
    RingMod built with one frequency and then set to the constant [f]
    plays [input * sin(2*pi*f*n/SR) * mul + add]. *)
Theorem setter_after_construction :
  (forall input freq mul add x,
      arg_len x = arg_len (RingMod._freq (RingMod.__init__ input freq mul add)) ->
      RingMod.setFreq x (RingMod.__init__ input freq mul add)
        = RingMod.__init__ input (Some x) mul add)
  /\ (forall input depth lfofreq feedback mul add x,
        let fl := Flanger.__init__ input depth lfofreq feedback mul add in
        (arg_len x = arg_len (Flanger._depth fl) ->
         Flanger.setDepth x fl
           = Flanger.__init__ input (Some x) lfofreq feedback mul add)
        /\ (arg_len x = arg_len (Flanger._lfofreq fl) ->
            Flanger.setLfoFreq x fl
              = Flanger.__init__ input depth (Some x) feedback mul add)
        /\ (arg_len x = arg_len (Flanger._feedback fl) ->
            Flanger.setFeedback x fl
              = Flanger.__init__ input depth lfofreq (Some x) mul add))
  /\ (forall sv input f0 mul add f i n,
        chan (RingMod.streams sv
                (RingMod.setFreq (scalar f)
                   (RingMod.__init__ input (Some (scalar f0))
                      (Some mul) (Some add)))) i n
          = resolve (wrap input (i mod arg_len input)) n
            * sin (2 * PI * f * INR n / sr sv)
            * resolve (wrap mul i) n + resolve (wrap add i) n).
Proof.
  split; [|split].
  - intros input freq mul add x _. reflexivity.
  - intros input depth lfofreq feedback mul add x fl. repeat split.
  - intros sv input f0 mul add f i n.
    change (RingMod.setFreq (scalar f)
              (RingMod.__init__ input (Some (scalar f0)) (Some mul) (Some add)))
      with (RingMod.__init__ input (Some (scalar f)) (Some mul) (Some add)).
    rewrite ringmod_streams, !wrap_scalar. cbn [resolve].
    change (arg_len (scalar f)) with 1%nat.
    rewrite Nat.max_comm, max_arg_len_1, wrap_mod, osc_const. reflexivity.
Qed.

Lemma setter_after_construction_witness :
  arg_len (floats 800 [1000])
    = arg_len (RingMod._freq
                 (RingMod.__init__ unit_input (Some (floats 100 [200])) None None))
  /\ RingMod.setFreq (floats 800 [1000])
       (RingMod.__init__ unit_input (Some (floats 100 [200])) None None)
     = RingMod.__init__ unit_input (Some (floats 800 [1000])) None None.
Proof.
  assert (H : arg_len (floats 800 [1000])
              = arg_len (RingMod._freq
                           (RingMod.__init__ unit_input
                              (Some (floats 100 [200])) None None)))
    by reflexivity.
  split; [exact H|].
  destruct setter_after_construction as [Hring _].
  exact (Hring unit_input (Some (floats 100 [200])) None None
               (floats 800 [1000]) H).
Defined.

(** X8. Setters of different controls commute and a later value
    replaces an earlier one: on a Flanger for [depth], [lfofreq] and
    [feedback], on a RingMod for [freq]; replacing the input commutes
    with all of them. *)
Theorem setters_commute :
  (forall x y ft (rm : RingMod.RingMod),
      RingMod.setFreq y (RingMod.setFreq x rm) = RingMod.setFreq y rm
      /\ RingMod.setFreq x (RingMod.setInput y ft rm)
         = RingMod.setInput y ft (RingMod.setFreq x rm))
  /\ (forall x y ft (fl : Flanger.Flanger),
        Flanger.setDepth y (Flanger.setDepth x fl) = Flanger.setDepth y fl
        /\ Flanger.setLfoFreq y (Flanger.setLfoFreq x fl) = Flanger.setLfoFreq y fl
        /\ Flanger.setFeedback y (Flanger.setFeedback x fl) = Flanger.setFeedback y fl
        /\ Flanger.setDepth x (Flanger.setLfoFreq y fl)
           = Flanger.setLfoFreq y (Flanger.setDepth x fl)
        /\ Flanger.setDepth x (Flanger.setFeedback y fl)
           = Flanger.setFeedback y (Flanger.setDepth x fl)
        /\ Flanger.setLfoFreq x (Flanger.setFeedback y fl)
           = Flanger.setFeedback y (Flanger.setLfoFreq x fl)
        /\ Flanger.setDepth x (Flanger.setInput y ft fl)
           = Flanger.setInput y ft (Flanger.setDepth x fl)
        /\ Flanger.setLfoFreq x (Flanger.setInput y ft fl)
           = Flanger.setInput y ft (Flanger.setLfoFreq x fl)
        /\ Flanger.setFeedback x (Flanger.setInput y ft fl)
           = Flanger.setInput y ft (Flanger.setFeedback x fl)).
Proof.
  split; intros x y ft o; repeat split.
Qed.

(** X9. A control can be set while the node is stopped or playing
    without disturbing the lifecycle: every setter commutes with [play]
    and with [stop]. *)
Theorem setters_commute_with_lifecycle :
  (forall x ft dur delay (rm : RingMod.RingMod),
      RingMod.setFreq x (RingMod.stop rm) = RingMod.stop (RingMod.setFreq x rm)
      /\ RingMod.setFreq x (RingMod.play dur delay rm)
         = RingMod.play dur delay (RingMod.setFreq x rm)
      /\ RingMod.setInput x ft (RingMod.stop rm)
         = RingMod.stop (RingMod.setInput x ft rm)
      /\ RingMod.setInput x ft (RingMod.play dur delay rm)
         = RingMod.play dur delay (RingMod.setInput x ft rm))
  /\ (forall x ft dur delay (fl : Flanger.Flanger),
        Flanger.setDepth x (Flanger.stop fl) = Flanger.stop (Flanger.setDepth x fl)
        /\ Flanger.setDepth x (Flanger.play dur delay fl)
           = Flanger.play dur delay (Flanger.setDepth x fl)
        /\ Flanger.setLfoFreq x (Flanger.stop fl)
           = Flanger.stop (Flanger.setLfoFreq x fl)
        /\ Flanger.setLfoFreq x (Flanger.play dur delay fl)
           = Flanger.play dur delay (Flanger.setLfoFreq x fl)
        /\ Flanger.setFeedback x (Flanger.stop fl)
           = Flanger.stop (Flanger.setFeedback x fl)
        /\ Flanger.setFeedback x (Flanger.play dur delay fl)
           = Flanger.play dur delay (Flanger.setFeedback x fl)
        /\ Flanger.setInput x ft (Flanger.stop fl)
           = Flanger.stop (Flanger.setInput x ft fl)
        /\ Flanger.setInput x ft (Flanger.play dur delay fl)
           = Flanger.play dur delay (Flanger.setInput x ft fl)).
Proof.
  split; intros x ft dur delay o; repeat split.
Qed.

(** X10. [play()] after [stop()] is [play()]: on both classes a node
    that is stopped and then played is in the state of a node that was
    played without having been stopped, with the same play state and
    the same play counts on every owned object. *)
Theorem play_after_stop :
  (forall dur delay (rm : RingMod.RingMod),
      RingMod.play dur delay (RingMod.stop rm) = RingMod.play dur delay rm)
  /\ (forall dur delay (fl : Flanger.Flanger),
        Flanger.play dur delay (Flanger.stop fl) = Flanger.play dur delay fl).
Proof.
  split; reflexivity.
Qed.

(** X12. [play()] and [stop()] leave the controls alone: the stored
    attributes and the parameters of the owned objects are as before. *)
Theorem lifecycle_keeps_controls :
  (forall dur delay (rm : RingMod.RingMod),
      let same (rm' : RingMod.RingMod) :=
        RingMod._input rm' = RingMod._input rm
        /\ RingMod._freq rm' = RingMod._freq rm
        /\ params (RingMod._mod rm') = params (RingMod._mod rm)
        /\ params (RingMod._ring rm') = params (RingMod._ring rm) in
      same (RingMod.play dur delay rm) /\ same (RingMod.stop rm))
  /\ (forall dur delay (fl : Flanger.Flanger),
        let same (fl' : Flanger.Flanger) :=
          Flanger._input fl' = Flanger._input fl
          /\ Flanger._depth fl' = Flanger._depth fl
          /\ Flanger._lfofreq fl' = Flanger._lfofreq fl
          /\ Flanger._feedback fl' = Flanger._feedback fl
          /\ params (Flanger._modamp fl') = params (Flanger._modamp fl)
          /\ params (Flanger._mod fl') = params (Flanger._mod fl)
          /\ params (Flanger._dls fl') = params (Flanger._dls fl)
          /\ params (Flanger._flange fl') = params (Flanger._flange fl) in
        same (Flanger.play dur delay fl) /\ same (Flanger.stop fl)).
Proof.
  split; intros dur delay o same; unfold same; repeat split.
Qed.

(** *** The control window *)

(** X13. Every named slider of [Flanger.ctrl()] carries the name of a
    public attribute of the class and opens on the current value of that
    attribute, so on the value last given to its setter; for a Flanger
    built with the constructor defaults every slider opens inside its
    range. *)
Theorem flanger_ctrl_sliders :
  (forall fl : Flanger.Flanger,
      Forall (fun s =>
                match slider_name s with
                | Some name =>
                    exists a, Flanger.attr_of_name name = Some a
                              /\ slider_init s = Flanger.getattr a fl
                | None => True
                end) (Flanger.ctrl fl))
  /\ (forall x (fl : Flanger.Flanger),
        map slider_init (Flanger.ctrl (Flanger.setDepth x fl))
          = x :: tl (map slider_init (Flanger.ctrl fl))
        /\ nth 1 (map slider_init (Flanger.ctrl (Flanger.setLfoFreq x fl))) x = x
        /\ nth 2 (map slider_init (Flanger.ctrl (Flanger.setFeedback x fl))) x = x)
  /\ (forall input mul add,
        Forall slider_in_range
          (Flanger.ctrl (Flanger.__init__ input None None None mul add))).
Proof.
  split; [|split].
  - intro fl. unfold Flanger.ctrl.
    repeat constructor.
    + exists Flanger.depth. split; reflexivity.
    + exists Flanger.lfofreq. split; reflexivity.
    + exists Flanger.feedback. split; reflexivity.
  - intros x fl. repeat split.
  - intros input mul add. unfold Flanger.ctrl, Flanger.__init__.
    cbn [Flanger._depth Flanger._lfofreq Flanger._feedback Flanger._mul
         Flanger.default].
    repeat (apply Forall_cons;
            [cbn [slider_in_range]; intros i n;
             rewrite wrap_scalar; cbn [resolve]; lra|]).
    apply Forall_cons; [exact I|apply Forall_nil].
Qed.

(** X14. The named slider of [RingMod.ctrl()] is [freq]: it carries the
    name of a public attribute, opens on the current frequency, so on
    the value last given to [setFreq], and for a RingMod built with the
    default frequency it opens inside its range of 10 to 2000. *)
Theorem ringmod_ctrl_sliders :
  (forall rm : RingMod.RingMod,
      Forall (fun s =>
                match slider_name s with
                | Some name =>
                    exists a, RingMod.attr_of_name name = Some a
                              /\ slider_init s = RingMod.getattr a rm
                | None => True
                end) (RingMod.ctrl rm))
  /\ (forall x (rm : RingMod.RingMod),
        map slider_init (RingMod.ctrl (RingMod.setFreq x rm))
          = x :: tl (map slider_init (RingMod.ctrl rm)))
  /\ (forall input mul add,
        Forall slider_in_range
          (RingMod.ctrl (RingMod.__init__ input None mul add))).
Proof.
  split; [|split].
  - intro rm. unfold RingMod.ctrl.
    repeat constructor.
    exists RingMod.freq. split; reflexivity.
  - intros x rm. reflexivity.
  - intros input mul add. unfold RingMod.ctrl, RingMod.__init__.
    cbn [RingMod._freq RingMod._mul RingMod.default].
    apply Forall_cons;
      [cbn [slider_in_range]; intros i n;
       rewrite wrap_scalar; cbn [resolve]; lra|].
    apply Forall_cons; [exact I|apply Forall_nil].
Qed.

(** *** Phaser.py *)

Lemma sine_within (sv : Server) (f : Arg) (m a : R) (i n : nat) :
  a - Rabs m
    <= chan (Sine_out sv PhaserScript.alone
               (Sine_new (Lit f) (Lit (scalar m)) (Lit (scalar a)))) i n
    <= a + Rabs m.
Proof.
  unfold Sine_out, Sine_new, emit, create, live.
  cbn [params Pyo.freq Pyo.mul Pyo.add state src_chans chan width].
  rewrite !pick_scalar.
  set (o := pick _ i n).
  assert (Ho : -1 <= o <= 1).
  { unfold o, pick. cbn [chan width]. unfold osc. apply SIN_bound. }
  destruct (Rcase_abs m) as [Hm|Hm].
  - rewrite (Rabs_left m Hm). split; nra.
  - rewrite (Rabs_right m Hm). split; nra.
Qed.

(** X15. The three oscillators that Phaser.py feeds to the Phaser
    have two streams each, and on both streams at every sample the base
    frequency stays between 150 and 350 Hz, the spread between 1.1 and
    1.9 and the resonance between 1 and 11: all three stay positive and
    the spread stays above 1. *)
Theorem phaser_script_controls :
  forall sv i n,
    width (Sine_out sv PhaserScript.alone PhaserScript.lf1) = 2%nat
    /\ width (Sine_out sv PhaserScript.alone PhaserScript.lf2) = 2%nat
    /\ width (Sine_out sv PhaserScript.alone PhaserScript.lf3) = 2%nat
    /\ 150 <= chan (Sine_out sv PhaserScript.alone PhaserScript.lf1) i n <= 350
    /\ 11/10 <= chan (Sine_out sv PhaserScript.alone PhaserScript.lf2) i n <= 19/10
    /\ 1 <= chan (Sine_out sv PhaserScript.alone PhaserScript.lf3) i n <= 11.
Proof.
  intros sv i n.
  split; [reflexivity|]. split; [reflexivity|]. split; [reflexivity|].
  pose proof (sine_within sv (floats (1/10) [15/100]) 100 250 i n) as H1.
  pose proof (sine_within sv (floats (18/100) [13/100]) (4/10) (15/10) i n) as H2.
  pose proof (sine_within sv (floats (7/100) [9/100]) 5 6 i n) as H3.
  rewrite Rabs_right in H1, H2, H3 by lra.
  fold PhaserScript.lf1 in H1. fold PhaserScript.lf2 in H2.
  fold PhaserScript.lf3 in H3.
  repeat split; lra.
Qed.

(** *** A depth outside the documented range *)

(** X16. Nothing keeps [depth] within the documented 0 to 1: with a
    constant depth above 1 and a sweep of a quarter of the sampling rate
    the delay time asked of the delay line at sample 3 is negative. *)
Theorem flanger_depth_above_one_goes_negative :
  forall sv input d feedback mul add i,
    0 < sr sv ->
    1 < d ->
    chan (Flanger.delay_time sv
            (Flanger.__init__ input (Some (scalar d)) (Some (scalar (sr sv / 4)))
               feedback mul add)) i 3%nat < 0.
Proof.
  intros sv input d feedback mul add i Hsr Hd.
  rewrite flanger_delay_streams, !wrap_scalar. cbn [resolve].
  rewrite osc_const.
  replace (2 * PI * (sr sv / 4) * INR 3 / sr sv) with (3 * (PI / 2))
    by (change (INR 3) with (1 + 1 + 1); field; lra).
  rewrite sin_3PI2. lra.
Qed.

Lemma flanger_depth_above_one_goes_negative_witness :
  0 < sr cd_server /\ 1 < 2
  /\ chan (Flanger.delay_time cd_server
             (Flanger.__init__ unit_input (Some (scalar 2))
                (Some (scalar (sr cd_server / 4))) None None None)) O 3%nat < 0.
Proof.
  assert (H1 : 0 < sr cd_server) by (cbn [sr cd_server]; lra).
  assert (H2 : 1 < 2) by lra.
  split; [exact H1|]. split; [exact H2|].
  exact (flanger_depth_above_one_goes_negative cd_server unit_input 2
           None None None O H1 H2).
Defined.
